(** * PDF text extraction scripts: a shallow embedding

    The repository holds two scripts, [extract_profile.py] and
    [extract_pdf.py].  Each one imports third-party PDF libraries, opens one
    hard-coded file, calls [extract_text()] on every page and prints the
    concatenation.  What the scripts do depends on the host: which libraries
    are installed, whether the reader can be built on the file, and what every
    page returns.  The embedding below makes that host an explicit [world]
    and runs the scripts in a small monad that keeps the trace of observable
    events (imports, opens, page extractions, prints) together with the way
    the run ends (normal return or a propagating Python exception).  The
    host also holds the encoding of the standard output: the [print] of an
    extracted text raises when the encoding lacks one of its characters. *)

From Stdlib Require Import String Ascii List Arith Lia Bool Sorted.
From Stdlib Require Import Decimal DecimalString DecimalNat.
Import ListNotations.
Local Open Scope string_scope.

(** ** Python values and exceptions *)

(** The handlers of the scripts tell two classes apart: [ImportError] (with
    its subclasses) and every other subclass of [Exception].  Classes that
    derive from [BaseException] only (KeyboardInterrupt, SystemExit) are not
    raised by the libraries and are left out.  [msg] is what [str(e)]
    gives. *)
Inductive exn : Type :=
| ImportError (msg : string)
| OtherException (msg : string).

Definition str_exn (e : exn) : string :=
  match e with
  | ImportError m => m
  | OtherException m => m
  end.

Inductive outcome (A : Type) : Type :=
| Returns (a : A)
| Raises (e : exn).
Arguments Returns {A} a.
Arguments Raises {A} e.

(** [page.extract_text()] returns a [str], returns [None], or raises. *)
Definition page : Type := outcome (option string).

(** One library on the host: what its import statement does, and what
    building the reader on the hard-coded path does once it is imported
    (the pages of the document, or an exception for a missing, unreadable,
    corrupt or unsupported file). *)
Record backend : Type := Backend {
  import_result : outcome unit;
  open_result : outcome (list page)
}.

(** The host: the file, the libraries, and the encoding of [sys.stdout].
    A [print] encodes its text before it writes; a character outside ASCII
    that the encoding lacks makes it raise [UnicodeEncodeError], whose
    message the codec words. *)
Record world : Type := World {
  file_exists : bool;          (* os.path.exists(pdf_path) *)
  file_size : nat;             (* os.path.getsize(pdf_path) *)
  site : string -> backend;    (* the host's answer for each module name *)
  stdout_lacks : ascii -> bool;      (* characters sys.stdout cannot encode *)
  codec_message : string -> string   (* str() of the UnicodeEncodeError *)
}.

(** ** Traces *)

(** [EvPrint s] is one call [print(s)]: the argument, without the newline
    that [print] adds. *)
Inductive event : Type :=
| EvImport (module_name : string)
| EvOpen (module_name : string)
| EvExtract (module_name : string) (index : nat)
| EvPrint (line : string).

(** A computation: the events it performed, and how it ended. *)
Definition M (A : Type) : Type := (list event * outcome A)%type.

Definition ret {A} (a : A) : M A := ([], Returns a).

Definition bind {A B} (m : M A) (f : A -> M B) : M B :=
  match m with
  | (tr, Returns a) => let (tr', r) := f a in ((tr ++ tr')%list, r)
  | (tr, Raises e) => (tr, Raises e)
  end.

Notation "x <- m ;; k" := (bind m (fun x => k))
  (at level 61, m at next level, right associativity).
Notation "m ;;; k" := (bind m (fun _ => k))
  (at level 61, right associativity).

(** [try: body / except ...: handler e]; the handler decides per class. *)
Definition try_except {A} (body : M A) (handler : exn -> M A) : M A :=
  match body with
  | (tr, Returns a) => (tr, Returns a)
  | (tr, Raises e) => let (tr', r) := handler e in ((tr ++ tr')%list, r)
  end.

Definition raise {A} (e : exn) : M A := ([], Raises e).

Definition lift {A} (ev : event) (o : outcome A) : M A := ([ev], o).

(** [print] of a line the script words itself (fixed ASCII text, a
    number, the message of an exception): it is written. *)
Definition print (line : string) : M unit := lift (EvPrint line) (Returns tt).

Definition is_ascii (c : ascii) : bool := (nat_of_ascii c <? 128)%nat.

(** Does [s] hold a character that the encoding of [sys.stdout] lacks? *)
Fixpoint unprintable (w : world) (s : string) : bool :=
  match s with
  | EmptyString => false
  | String c s' => (negb (is_ascii c) && stdout_lacks w c) || unprintable w s'
  end.

Fixpoint ascii_only (s : string) : bool :=
  match s with
  | EmptyString => true
  | String c s' => is_ascii c && ascii_only s'
  end.

(** [print] of a text extracted from the document: it is written, or
    nothing is written and [UnicodeEncodeError] is raised. *)
Definition print_text (w : world) (text : string) : M unit :=
  if unprintable w text
  then raise (OtherException (codec_message w text))
  else print text.

Definition trace {A} (m : M A) : list event := fst m.
Definition result {A} (m : M A) : outcome A := snd m.

Fixpoint stdout_of (tr : list event) : list string :=
  match tr with
  | [] => []
  | EvPrint s :: tr' => s :: stdout_of tr'
  | _ :: tr' => stdout_of tr'
  end.

Definition stdout {A} (m : M A) : list string := stdout_of (trace m).

(** The modules whose import was attempted, in order. *)
Fixpoint imports_of (tr : list event) : list string :=
  match tr with
  | [] => []
  | EvImport m :: tr' => m :: imports_of tr'
  | _ :: tr' => imports_of tr'
  end.

(** The modules with which an open of the file was attempted, in order. *)
Fixpoint opens_of (tr : list event) : list string :=
  match tr with
  | [] => []
  | EvOpen m :: tr' => m :: opens_of tr'
  | _ :: tr' => opens_of tr'
  end.

(** ** Formatting *)

Definition nl : string := String (ascii_of_nat 10) EmptyString.

(** [str(n)] for a non-negative integer. *)
Definition str_nat (n : nat) : string := NilZero.string_of_uint (Nat.to_uint n).

(** An optional string inside an f-string: [None] prints as [None]. *)
Definition str_opt (t : option string) : string :=
  match t with
  | Some s => s
  | None => "None"
  end.

Definition str_bool (b : bool) : string := if b then "True" else "False".

(** Truth value of [page_text] in [if page_text:]. *)
Definition truthy (t : option string) : bool :=
  match t with
  | None => false
  | Some EmptyString => false
  | Some _ => true
  end.

(** [f"=== PAGE {i+1} ===\n{page_text}\n\n"] *)
Definition page_block (i : nat) (page_text : string) : string :=
  "=== PAGE " ++ str_nat (i + 1) ++ " ===" ++ nl ++ page_text ++ nl ++ nl.

(** ** Host operations *)

Definition import_module (w : world) (m : string) : M unit :=
  lift (EvImport m) (import_result (site w m)).

Definition open_pdf (w : world) (m : string) : M (list page) :=
  lift (EvOpen m) (open_result (site w m)).

Definition extract_text (m : string) (i : nat) (p : page) : M (option string) :=
  lift (EvExtract m i) p.

(** ** The page loops *)

(** [for i, page in enumerate(pages): page_text = page.extract_text()]
    followed by the append to the accumulator.  The five loops of the two
    scripts differ in one point only: whether the append stands under
    [if page_text:].  [guard] is that test. *)
Fixpoint page_loop (guard : option string -> bool) (m : string) (i : nat)
    (pages : list page) (text : string) : M string :=
  match pages with
  | [] => ret text
  | p :: rest =>
      page_text <- extract_text m i p ;;
      page_loop guard m (S i) rest
        (if guard page_text
         then text ++ page_block i (str_opt page_text)
         else text)
  end.

(** The pypdf and PyPDF2 branches of extract_profile.py append every page. *)
Definition loop_every : string -> nat -> list page -> string -> M string :=
  page_loop (fun _ => true).

(** The pdfplumber branch of extract_profile.py and both loops of
    extract_pdf.py (which append the marker, the text and the separator in
    three steps) append under [if page_text:]. *)
Definition loop_nonempty : string -> nat -> list page -> string -> M string :=
  page_loop truthy.

(** ** extract_profile.py *)

Module ExtractProfile.

Definition pdf_path : string :=
  "/Users/maverickshaw/Projects/Samantha/server/workspace/a9ce84d6-3b22-4acc-a074-cb0d7254b4ce/profile.pdf".

Definition libraries_to_try : list string := ["pypdf"; "PyPDF2"; "pdfplumber"].

(** How the body of the [try] ends when it does not raise: on a [break], or
    by falling off its end (no branch of the if/elif chain matched). *)
Inductive flow : Type := Break | Next.

(** The body of the [try] for one entry of the list. *)
Definition try_body (w : world) (lib : string) : M flow :=
  if (lib =? "pypdf")%string then
    import_module w "pypdf" ;;;
    pages <- open_pdf w "pypdf" ;;
    text <- loop_every "pypdf" 0 pages "" ;;
    print ("SUCCESS with " ++ lib ++ ":") ;;;
    print_text w text ;;;
    ret Break
  else if (lib =? "PyPDF2")%string then
    import_module w "PyPDF2" ;;;
    pages <- open_pdf w "PyPDF2" ;;
    text <- loop_every "PyPDF2" 0 pages "" ;;
    print ("SUCCESS with " ++ lib ++ ":") ;;;
    print_text w text ;;;
    ret Break
  else if (lib =? "pdfplumber")%string then
    import_module w "pdfplumber" ;;;
    pages <- open_pdf w "pdfplumber" ;;
    text <- loop_nonempty "pdfplumber" 0 pages "" ;;
    print ("SUCCESS with " ++ lib ++ ":") ;;;
    print_text w text ;;;
    ret Break
  else ret Next.

(** The two [except] clauses; both end in [continue]. *)
Definition handler (lib : string) (e : exn) : M flow :=
  match e with
  | ImportError _ => print (lib ++ " not available") ;;; ret Next
  | OtherException _ => print ("Error with " ++ lib ++ ": " ++ str_exn e) ;;; ret Next
  end.

(** The line a handler prints, and the guard of each branch's page loop. *)
Definition report (lib : string) (e : exn) : string :=
  match e with
  | ImportError _ => lib ++ " not available"
  | OtherException msg => "Error with " ++ lib ++ ": " ++ msg
  end.

Definition lib_guard (lib : string) : option string -> bool :=
  if (lib =? "pdfplumber")%string then truthy else fun _ => true.

Definition attempt (w : world) (lib : string) : M flow :=
  try_except (try_body w lib) (handler lib).

(** [for lib in libs: try: ... except ...] *)
Fixpoint for_libs (w : world) (libs : list string) : M unit :=
  match libs with
  | [] => ret tt
  | lib :: rest =>
      f <- attempt w lib ;;
      match f with
      | Break => ret tt
      | Next => for_libs w rest
      end
  end.

Definition main (w : world) : M unit :=
  print ("Trying to process PDF: " ++ pdf_path) ;;;
  print ("File exists: " ++ str_bool (file_exists w)) ;;;
  (if file_exists w
   then print ("File size: " ++ str_nat (file_size w) ++ " bytes")
   else ret tt) ;;;
  for_libs w libraries_to_try ;;;
  print "Finished trying all libraries".

(** What [main] prints before its loop. *)
Definition header (w : world) : list event :=
  EvPrint ("Trying to process PDF: " ++ pdf_path)
  :: EvPrint ("File exists: " ++ str_bool (file_exists w))
  :: (if file_exists w
      then [EvPrint ("File size: " ++ str_nat (file_size w) ++ " bytes")]
      else []).

End ExtractProfile.

(** ** extract_pdf.py *)

(** The script first appends a directory to [sys.path]; what that changes is
    which imports succeed, and this is part of the [world]. *)
Module ExtractPdf.

(** The inner [try] of the [except ImportError] clause. *)
Definition fallback (w : world) : M unit :=
  try_except
    (import_module w "PyPDF2" ;;;
     pages <- open_pdf w "PyPDF2" ;;
     full_text <- loop_nonempty "PyPDF2" 0 pages "" ;;
     print_text w full_text)
    (fun e =>
       match e with
       | ImportError _ => print "Neither pdfplumber nor PyPDF2 available"
       | OtherException _ => raise e
       end).

Definition main (w : world) : M unit :=
  try_except
    (import_module w "pdfplumber" ;;;
     pages <- open_pdf w "pdfplumber" ;;
     full_text <- loop_nonempty "pdfplumber" 0 pages "" ;;
     print_text w full_text)
    (fun e =>
       match e with
       | ImportError _ =>
           print ("Error importing pdfplumber: " ++ str_exn e) ;;;
           fallback w
       | OtherException _ => print ("Error reading PDF: " ++ str_exn e)
       end).

End ExtractPdf.

(** ** What a loop appends, as data *)

(** The pairs (1-based page number, text) for which a loop appends a block,
    given what the pages returned. *)
Fixpoint tagged (guard : option string -> bool) (i : nat)
    (texts : list (option string)) : list (nat * string) :=
  match texts with
  | [] => []
  | t :: rest =>
      if guard t
      then (i + 1, str_opt t) :: tagged guard (S i) rest
      else tagged guard (S i) rest
  end.

(** A marker line, the text, and the blank-line separator. *)
Definition block (p : nat * string) : string :=
  "=== PAGE " ++ str_nat (fst p) ++ " ===" ++ nl ++ snd p ++ nl ++ nl.

Fixpoint render (ps : list (nat * string)) : string :=
  match ps with
  | [] => ""
  | p :: rest => block p ++ render rest
  end.

Definition extract_events (m : string) (i n : nat) : list event :=
  map (EvExtract m) (seq i n).

(** ** Hosts *)

(** Some hosts on which the scripts are run below. *)
Module Hosts.

Definition installed (pages : list page) : backend :=
  Backend (Returns tt) (Returns pages).

Definition missing (name : string) : backend :=
  Backend (Raises (ImportError ("No module named '" ++ name ++ "'"))) (Returns []).

Definition broken (cause : string) : backend :=
  Backend (Returns tt) (Raises (OtherException cause)).

Definition host (present : bool) (size : nat) (b_pypdf b_PyPDF2 b_pdfplumber : backend)
  : world :=
  World present size (fun m =>
    if (m =? "pypdf")%string then b_pypdf
    else if (m =? "PyPDF2")%string then b_PyPDF2
    else if (m =? "pdfplumber")%string then b_pdfplumber
    else missing m)
    (fun _ => false) (fun _ => "").

(** The same host with an ASCII [sys.stdout]. *)
Definition with_ascii_stdout (w : world) : world :=
  World (file_exists w) (file_size w) (site w)
    (fun _ => true) (fun _ => "'ascii' codec can't encode character").

(** A word with an accented letter. *)
Definition cafe : string := "caf" ++ String (ascii_of_nat 233) "".

Definition text_page (s : string) : page := Returns (Some s).
Definition blank_page : page := Returns None.

(** The file is not there: all three libraries import, none can open it. *)
Definition no_file : world :=
  host false 0
    (broken "[Errno 2] No such file or directory")
    (broken "[Errno 2] No such file or directory")
    (broken "[Errno 2] No such file or directory").

(** pdfplumber is not installed and PyPDF2 rejects the file. *)
Definition fallback_rejects : world :=
  host true 1024
    (missing "pypdf")
    (broken "EOF marker not found")
    (missing "pdfplumber").

(** pdfplumber is installed and rejects the file; PyPDF2 would read it. *)
Definition plumber_rejects : world :=
  host true 1024
    (missing "pypdf")
    (installed [text_page "hello"])
    (broken "No /Root object! - Is this really a PDF?").

(** A scanned document: two pages, no text layer, under every library. *)
Definition scanned : world :=
  host true 2048
    (installed [text_page ""; text_page ""])
    (installed [text_page ""; text_page ""])
    (installed [blank_page; blank_page]).


(** Three pages, the middle one without text. *)
Definition middle_blank : world :=
  host true 4096
    (installed [text_page "a"; text_page ""; text_page "c"])
    (installed [text_page "a"; blank_page; text_page "c"])
    (installed [text_page "a"; blank_page; text_page "c"]).


(** A one-page document whose text has a line that looks like a marker. *)
Definition marker_in_text : world :=
  host true 4096
    (missing "pypdf")
    (missing "PyPDF2")
    (installed [text_page ("a" ++ nl ++ nl ++ "=== PAGE 2 ===" ++ nl ++ "b")]).


(** pypdf is missing, PyPDF2 and pdfplumber read a page with an accented
    letter, and [sys.stdout] is ASCII. *)
Definition accented : world :=
  with_ascii_stdout
    (host true 4096
       (missing "pypdf")
       (installed [text_page cafe])
       (installed [text_page cafe])).

(** pdfplumber is missing, PyPDF2 reads a page with an accented letter, and
    [sys.stdout] is ASCII. *)
Definition accented_fallback : world :=
  with_ascii_stdout
    (host true 4096
       (missing "pypdf")
       (installed [text_page cafe])
       (missing "pdfplumber")).

End Hosts.

(** ** Notions used in the statements *)

(** No library was imported and no open was tried. *)
Definition no_backend_attempted (tr : list event) : Prop :=
  imports_of tr = [] /\ opens_of tr = [].

(** The line extract_profile.py prints for a library that fails before its
    page loop: the import raises, or the open does. *)
Definition failure_line (w : world) (lib : string) : string :=
  match import_result (site w lib) with
  | Raises e => ExtractProfile.report lib e
  | Returns _ =>
      match open_result (site w lib) with
      | Raises e => ExtractProfile.report lib e
      | Returns _ => ""
      end
  end.

(** ** Splitting a text back into pages *)

(** The scripts only print; nothing in them reads a printed text back.  The
    definitions of this part are the reader that the round-trip property of
    the specification speaks of. *)

Definition is_digit (c : ascii) : bool :=
  ((48 <=? nat_of_ascii c)%nat && (nat_of_ascii c <=? 57)%nat)%bool.

(** The longest run of digits at the head of [s], and what follows it. *)
Fixpoint span_digits (s : string) : string * string :=
  match s with
  | EmptyString => ("", "")
  | String c s' =>
      if is_digit c
      then let (d, r) := span_digits s' in (String c d, r)
      else ("", s)
  end.

(** [s] without its prefix [p], when it has that prefix. *)
Fixpoint strip_prefix (p s : string) : option string :=
  match p with
  | EmptyString => Some s
  | String a p' =>
      match s with
      | EmptyString => None
      | String b s' => if Ascii.eqb a b then strip_prefix p' s' else None
      end
  end.

(** Modelled from the spec: a marker line [=== PAGE <n> ===] at the head of
    [s], [n] being one or more decimal digits and the line ending in a
    newline; the result is the page number and the text after the line. *)
Definition parse_marker (s : string) : option (nat * string) :=
  match strip_prefix "=== PAGE " s with
  | None => None
  | Some r =>
      let (d, r') := span_digits r in
      match NilZero.uint_of_string d, strip_prefix (" ===" ++ nl) r' with
      | Some u, Some rest => Some (Nat.of_uint u, rest)
      | _, _ => None
      end
  end.

(** The text up to the next marker line (or the end), and the rest. *)
Fixpoint take_body (s : string) : string * string :=
  match s with
  | EmptyString => ("", "")
  | String c s' =>
      match parse_marker s with
      | Some _ => ("", s)
      | None => let (b, r) := take_body s' in (String c b, r)
      end
  end.

(** [b] without the blank-line separator that ends it. *)
Fixpoint chop_separator (b : string) : string :=
  match b with
  | EmptyString => ""
  | String c b' =>
      if (b =? nl ++ nl)%string then "" else String c (chop_separator b')
  end.

Fixpoint split_pages (fuel : nat) (s : string) : list (nat * string) :=
  match fuel with
  | 0 => []
  | S fuel' =>
      match parse_marker s with
      | None => []
      | Some (n, r) =>
          let (b, r') := take_body r in
          (n, chop_separator b) :: split_pages fuel' r'
      end
  end.

(** Modelled from the spec: the re-splitting of a printed text on its
    [=== PAGE n ===] markers, giving back page numbers and page texts.  Every
    page consumes at least one character, so the length of the text is fuel
    enough. *)
Definition resplit (s : string) : list (nat * string) :=
  split_pages (String.length s) s.

Fixpoint all_digits (s : string) : bool :=
  match s with
  | EmptyString => true
  | String c s' => is_digit c && all_digits s'
  end.

(** No newline in [p]. *)
Fixpoint one_line (p : string) : bool :=
  match p with
  | EmptyString => true
  | String a p' => negb (Ascii.eqb a (ascii_of_nat 10)) && one_line p'
  end.

(** Does a marker line start somewhere in [s]? *)
Fixpoint has_marker (s : string) : bool :=
  match s with
  | EmptyString => false
  | String _ s' =>
      match parse_marker s with
      | Some _ => true
      | None => has_marker s'
      end
  end.

(** A page text that cannot be mistaken for the start of another page: no
    marker line starts inside it, also not when the newline that follows
    the text completes the line. *)
Definition marker_free (t : string) : bool := negb (has_marker (t ++ nl)).

(** ** What a library gives on a host *)

(** The statements of a library's block up to its prints: the import, the
    open and the page loop.  [reads] is how they end on a host: the
    accumulated text, or the exception of the first of them that raises. *)
Definition reads (guard : option string -> bool) (w : world) (lib : string)
  : outcome string :=
  result (import_module w lib ;;;
          pages <- open_pdf w lib ;;
          page_loop guard lib 0 pages "").

Definition imports_fine (w : world) (lib : string) : bool :=
  match import_result (site w lib) with
  | Returns _ => true
  | Raises _ => false
  end.

(** The lines of the loop of extract_profile.py, read off the outcomes of
    the blocks: a failure line per library whose block raises; for a block
    that returns, the SUCCESS line followed by the text, which ends the
    loop, or by the error line of a [print] that cannot encode the text,
    after which the loop goes on. *)
Fixpoint loop_lines (w : world) (libs : list string) : list string :=
  match libs with
  | [] => []
  | lib :: rest =>
      match reads (ExtractProfile.lib_guard lib) w lib with
      | Returns text =>
          if unprintable w text
          then ("SUCCESS with " ++ lib ++ ":")%string
               :: ("Error with " ++ lib ++ ": " ++ codec_message w text)%string
               :: loop_lines w rest
          else [("SUCCESS with " ++ lib ++ ":")%string; text]
      | Raises e => ExtractProfile.report lib e :: loop_lines w rest
      end
  end.

(** The libraries up to and including the first whose block returns a text
    that is printed. *)
Fixpoint tried (w : world) (libs : list string) : list string :=
  match libs with
  | [] => []
  | lib :: rest =>
      lib :: match reads (ExtractProfile.lib_guard lib) w lib with
             | Returns text => if unprintable w text then tried w rest else []
             | Raises _ => tried w rest
             end
  end.

(** Is [lib] one of the names the if/elif chain of extract_profile.py
    tests for? *)
Definition known (lib : string) : bool :=
  existsb (String.eqb lib) ExtractProfile.libraries_to_try.


(** A page that returns a text that is not empty, or raises. *)
Definition no_blank (p : page) : bool :=
  match p with
  | Returns t => truthy t
  | Raises _ => true
  end.

(** ** Strings *)

Lemma append_nil_r (s : string) : s ++ "" = s.
Proof. induction s as [|c s IH]; simpl; [reflexivity | now rewrite IH]. Qed.

Lemma append_assoc (s t u : string) : (s ++ t) ++ u = s ++ t ++ u.
Proof. induction s as [|c s IH]; simpl; [reflexivity | now rewrite IH]. Qed.

Lemma length_append (s t : string) :
  String.length (s ++ t) = String.length s + String.length t.
Proof. induction s as [|c s IH]; simpl; [reflexivity | now rewrite IH]. Qed.

Lemma page_block_block (i : nat) (t : string) : page_block i t = block (i + 1, t).
Proof. reflexivity. Qed.

(** ** The loops, page by page *)

Section PageLoop.

Variable guard : option string -> bool.
Variable m : string.

(** When every page returns, the loop performs one extraction per page and
    returns the accumulator extended by the blocks of the guarded pages. *)
Lemma page_loop_returns (texts : list (option string)) :
  forall i text,
    page_loop guard m i (map Returns texts) text
    = (extract_events m i (length texts),
       Returns (text ++ render (tagged guard i texts))).
Proof.
  induction texts as [|t rest IH]; intros i text.
  - simpl. now rewrite append_nil_r.
  - simpl. unfold extract_text, lift, bind. rewrite IH.
    unfold extract_events. simpl. f_equal. f_equal.
    destruct (guard t); [|reflexivity].
    simpl render. now rewrite append_assoc, page_block_block.
Qed.

(** When a page raises, the loop stops there: the exception propagates and
    the accumulator is lost. *)
Lemma page_loop_raises (texts : list (option string)) (e : exn) (later : list page) :
  forall i text,
    page_loop guard m i (map Returns texts ++ Raises e :: later)%list text
    = (extract_events m i (S (length texts)), Raises e).
Proof.
  induction texts as [|t rest IH]; intros i text.
  - reflexivity.
  - simpl. unfold extract_text, lift, bind. rewrite IH. reflexivity.
Qed.

(** The pages of a document either all return, or there is a first one that
    raises. *)
Lemma pages_split (pages : list page) :
  (exists texts, pages = map Returns texts)
  \/ (exists texts e later, pages = (map Returns texts ++ Raises e :: later)%list).
Proof.
  induction pages as [|p rest IH].
  - left. now exists [].
  - destruct p as [t|e].
    + destruct IH as [[texts ->] | (texts & e & later & ->)].
      * left. now exists (t :: texts).
      * right. now exists (t :: texts), e, later.
    + right. now exists [], e, rest.
Qed.

End PageLoop.

(** ** extract_profile.py: one attempt *)

Section ProfileAttempt.

Import ExtractProfile.

Variable w : world.

Lemma handler_report (lib : string) (e : exn) :
  handler lib e = ([EvPrint (report lib e)], Returns Next).
Proof. destruct e; reflexivity. Qed.

(** Whatever the body does, the attempt itself never raises. *)
Lemma attempt_raises (lib : string) (tr : list event) (e : exn) :
  try_body w lib = (tr, Raises e) ->
  attempt w lib = ((tr ++ [EvPrint (report lib e)])%list, Returns Next).
Proof.
  intros H. unfold attempt, try_except. rewrite H, handler_report. reflexivity.
Qed.

Lemma attempt_returns (lib : string) (tr : list event) (f : flow) :
  try_body w lib = (tr, Returns f) -> attempt w lib = (tr, Returns f).
Proof. intros H. unfold attempt, try_except. now rewrite H. Qed.

Lemma attempt_total (lib : string) :
  exists tr f, attempt w lib = (tr, Returns f).
Proof.
  destruct (try_body w lib) as [tr [f|e]] eqn:H.
  - exists tr, f. now apply attempt_returns.
  - exists (tr ++ [EvPrint (report lib e)])%list, Next.
    apply attempt_raises. exact H.
Qed.

(** For the three names of the list, the if/elif chain selects the branch
    of that library; the branches differ by the guard of the page loop. *)
Lemma try_body_known (lib : string) :
  In lib libraries_to_try ->
  try_body w lib =
    (import_module w lib ;;;
     pages <- open_pdf w lib ;;
     text <- page_loop (lib_guard lib) lib 0 pages "" ;;
     print ("SUCCESS with " ++ lib ++ ":") ;;;
     print_text w text ;;;
     ret Break).
Proof.
  intros [<- | [<- | [<- | []]]]; reflexivity.
Qed.

Lemma body_import_raises (lib : string) (e : exn) :
  In lib libraries_to_try ->
  import_result (site w lib) = Raises e ->
  try_body w lib = ([EvImport lib], Raises e).
Proof.
  intros Hin Hi. rewrite (try_body_known lib Hin).
  unfold import_module, lift, bind. now rewrite Hi.
Qed.

Lemma body_open_raises (lib : string) (u : unit) (e : exn) :
  In lib libraries_to_try ->
  import_result (site w lib) = Returns u ->
  open_result (site w lib) = Raises e ->
  try_body w lib = ([EvImport lib; EvOpen lib], Raises e).
Proof.
  intros Hin Hi Ho. rewrite (try_body_known lib Hin).
  unfold import_module, open_pdf, lift, bind. now rewrite Hi, Ho.
Qed.

Lemma body_page_raises (lib : string) (u : unit) (texts : list (option string))
    (e : exn) (later : list page) :
  In lib libraries_to_try ->
  import_result (site w lib) = Returns u ->
  open_result (site w lib) = Returns (map Returns texts ++ Raises e :: later)%list ->
  try_body w lib =
    (EvImport lib :: EvOpen lib :: extract_events lib 0 (S (length texts)),
     Raises e).
Proof.
  intros Hin Hi Ho. rewrite (try_body_known lib Hin).
  unfold import_module, open_pdf, lift, bind. rewrite Hi, Ho.
  rewrite page_loop_raises. reflexivity.
Qed.

Lemma body_succeeds (lib : string) (u : unit) (texts : list (option string)) :
  In lib libraries_to_try ->
  import_result (site w lib) = Returns u ->
  open_result (site w lib) = Returns (map Returns texts) ->
  unprintable w (render (tagged (lib_guard lib) 0 texts)) = false ->
  try_body w lib =
    ((EvImport lib :: EvOpen lib :: extract_events lib 0 (length texts))
       ++ [EvPrint ("SUCCESS with " ++ lib ++ ":");
           EvPrint (render (tagged (lib_guard lib) 0 texts))],
     Returns Break)%list.
Proof.
  intros Hin Hi Ho Hp. rewrite (try_body_known lib Hin).
  unfold import_module, open_pdf, lift, bind. rewrite Hi, Ho.
  rewrite page_loop_returns. unfold print_text. cbn [append]. rewrite Hp.
  reflexivity.
Qed.

(** The text is read and cannot be printed: the SUCCESS line is out, the
    text is not, and the error of [print] ends the body. *)
Lemma body_print_raises (lib : string) (u : unit) (texts : list (option string)) :
  In lib libraries_to_try ->
  import_result (site w lib) = Returns u ->
  open_result (site w lib) = Returns (map Returns texts) ->
  unprintable w (render (tagged (lib_guard lib) 0 texts)) = true ->
  try_body w lib =
    ((EvImport lib :: EvOpen lib :: extract_events lib 0 (length texts))
       ++ [EvPrint ("SUCCESS with " ++ lib ++ ":")],
     Raises (OtherException
               (codec_message w (render (tagged (lib_guard lib) 0 texts)))))%list.
Proof.
  intros Hin Hi Ho Hp. rewrite (try_body_known lib Hin).
  unfold import_module, open_pdf, lift, bind. rewrite Hi, Ho.
  rewrite page_loop_returns. unfold print_text. cbn [append]. rewrite Hp.
  reflexivity.
Qed.

(** The body breaks out of the loop only after a full page loop. *)
Lemma body_break_inv (lib : string) (tr : list event) :
  try_body w lib = (tr, Returns Break) ->
  In lib libraries_to_try /\
  exists texts,
    open_result (site w lib) = Returns (map Returns texts) /\
    unprintable w (render (tagged (lib_guard lib) 0 texts)) = false /\
    tr = ((EvImport lib :: EvOpen lib :: extract_events lib 0 (length texts))
            ++ [EvPrint ("SUCCESS with " ++ lib ++ ":");
                EvPrint (render (tagged (lib_guard lib) 0 texts))])%list.
Proof.
  intros H.
  assert (Hin : In lib libraries_to_try).
  { unfold try_body in H.
    destruct (String.eqb_spec lib "pypdf") as [->|]; [simpl; auto|].
    destruct (String.eqb_spec lib "PyPDF2") as [->|]; [simpl; auto|].
    destruct (String.eqb_spec lib "pdfplumber") as [->|]; [simpl; auto|].
    discriminate. }
  split; [exact Hin|].
  destruct (import_result (site w lib)) as [u|e] eqn:Hi.
  2:{ rewrite (body_import_raises lib e Hin Hi) in H. discriminate. }
  destruct (open_result (site w lib)) as [pages|e] eqn:Ho.
  2:{ rewrite (body_open_raises lib u e Hin Hi Ho) in H. discriminate. }
  destruct (pages_split pages) as [[texts ->] | (texts & e & later & ->)].
  - exists texts. split; [reflexivity|].
    destruct (unprintable w (render (tagged (lib_guard lib) 0 texts))) eqn:Hp.
    + rewrite (body_print_raises lib u texts Hin Hi Ho Hp) in H. discriminate.
    + rewrite (body_succeeds lib u texts Hin Hi Ho Hp) in H.
      split; [reflexivity | now inversion H].
  - rewrite (body_page_raises lib u texts e later Hin Hi Ho) in H. discriminate.
Qed.

End ProfileAttempt.

(** ** extract_profile.py: the loop over the libraries *)

Section ProfileLoop.

Import ExtractProfile.

Variable w : world.

Lemma for_libs_next (lib : string) (rest : list string) (tr : list event) :
  attempt w lib = (tr, Returns Next) ->
  for_libs w (lib :: rest)
  = ((tr ++ trace (for_libs w rest))%list, result (for_libs w rest)).
Proof.
  intros H. simpl. unfold bind. rewrite H.
  now destruct (for_libs w rest).
Qed.

Lemma for_libs_break (lib : string) (rest : list string) (tr : list event) :
  attempt w lib = (tr, Returns Break) ->
  for_libs w (lib :: rest) = (tr, Returns tt).
Proof.
  intros H. simpl. unfold bind. rewrite H. simpl. now rewrite app_nil_r.
Qed.

Lemma for_libs_total (libs : list string) :
  result (for_libs w libs) = Returns tt.
Proof.
  induction libs as [|lib rest IH]; [reflexivity|].
  destruct (attempt_total w lib) as (tr & [|] & H).
  - now rewrite (for_libs_break lib rest tr H).
  - now rewrite (for_libs_next lib rest tr H).
Qed.

(** The script as a whole: two or three header lines, the loop, the last
    line. *)
Lemma main_unfold :
  main w =
    ((header w ++ trace (for_libs w libraries_to_try)
       ++ [EvPrint "Finished trying all libraries"])%list,
     Returns tt).
Proof.
  unfold main, header.
  pose proof (for_libs_total libraries_to_try) as Ht.
  destruct (for_libs w libraries_to_try) as [tr r].
  simpl in Ht. subst r.
  destruct (file_exists w); reflexivity.
Qed.

End ProfileLoop.

(** ** Lists of events *)

Lemma stdout_of_app (a b : list event) :
  stdout_of (a ++ b) = (stdout_of a ++ stdout_of b)%list.
Proof.
  induction a as [|[m|m|m i|s] a IH]; simpl; rewrite ?IH; reflexivity.
Qed.

Lemma imports_of_app (a b : list event) :
  imports_of (a ++ b) = (imports_of a ++ imports_of b)%list.
Proof.
  induction a as [|[m|m|m i|s] a IH]; simpl; rewrite ?IH; reflexivity.
Qed.

Lemma opens_of_app (a b : list event) :
  opens_of (a ++ b) = (opens_of a ++ opens_of b)%list.
Proof.
  induction a as [|[m|m|m i|s] a IH]; simpl; rewrite ?IH; reflexivity.
Qed.

Lemma stdout_of_extract (m : string) (i n : nat) :
  stdout_of (extract_events m i n) = [].
Proof.
  unfold extract_events. revert i.
  induction n as [|n IH]; intros i; simpl; [reflexivity | apply IH].
Qed.

Lemma imports_of_extract (m : string) (i n : nat) :
  imports_of (extract_events m i n) = [].
Proof.
  unfold extract_events. revert i.
  induction n as [|n IH]; intros i; simpl; [reflexivity | apply IH].
Qed.

Lemma opens_of_extract (m : string) (i n : nat) :
  opens_of (extract_events m i n) = [].
Proof.
  unfold extract_events. revert i.
  induction n as [|n IH]; intros i; simpl; [reflexivity | apply IH].
Qed.

(** ** extract_pdf.py, case by case *)

Section PdfScript.

Import ExtractPdf.

Variable w : world.

(** The guarded block shared by the two branches of the script. *)
Lemma read_and_print_returns (lib : string) (u : unit) (texts : list (option string)) :
  import_result (site w lib) = Returns u ->
  open_result (site w lib) = Returns (map Returns texts) ->
  unprintable w (render (tagged truthy 0 texts)) = false ->
  (import_module w lib ;;;
   pages <- open_pdf w lib ;;
   full_text <- loop_nonempty lib 0 pages "" ;;
   print_text w full_text)
  = ((EvImport lib :: EvOpen lib :: extract_events lib 0 (length texts))
       ++ [EvPrint (render (tagged truthy 0 texts))],
     Returns tt)%list.
Proof.
  intros Hi Ho Hp. unfold import_module, open_pdf, loop_nonempty, lift, bind.
  rewrite Hi, Ho, page_loop_returns. unfold print_text. cbn [append].
  rewrite Hp. reflexivity.
Qed.

(** The text is read and [print] cannot encode it. *)
Lemma read_and_print_print_raises (lib : string) (u : unit)
    (texts : list (option string)) :
  import_result (site w lib) = Returns u ->
  open_result (site w lib) = Returns (map Returns texts) ->
  unprintable w (render (tagged truthy 0 texts)) = true ->
  (import_module w lib ;;;
   pages <- open_pdf w lib ;;
   full_text <- loop_nonempty lib 0 pages "" ;;
   print_text w full_text)
  = (EvImport lib :: EvOpen lib :: extract_events lib 0 (length texts),
     Raises (OtherException (codec_message w (render (tagged truthy 0 texts))))).
Proof.
  intros Hi Ho Hp. unfold import_module, open_pdf, loop_nonempty, lift, bind.
  rewrite Hi, Ho, page_loop_returns. unfold print_text. cbn [append].
  rewrite Hp. cbn [raise]. now rewrite app_nil_r.
Qed.

Lemma read_and_print_import_raises (lib : string) (e : exn) :
  import_result (site w lib) = Raises e ->
  (import_module w lib ;;;
   pages <- open_pdf w lib ;;
   full_text <- loop_nonempty lib 0 pages "" ;;
   print_text w full_text)
  = ([EvImport lib], Raises e).
Proof.
  intros Hi. unfold import_module, lift, bind. now rewrite Hi.
Qed.

Lemma read_and_print_open_raises (lib : string) (u : unit) (e : exn) :
  import_result (site w lib) = Returns u ->
  open_result (site w lib) = Raises e ->
  (import_module w lib ;;;
   pages <- open_pdf w lib ;;
   full_text <- loop_nonempty lib 0 pages "" ;;
   print_text w full_text)
  = ([EvImport lib; EvOpen lib], Raises e).
Proof.
  intros Hi Ho. unfold import_module, open_pdf, lift, bind. now rewrite Hi, Ho.
Qed.

Lemma read_and_print_page_raises (lib : string) (u : unit)
    (texts : list (option string)) (e : exn) (later : list page) :
  import_result (site w lib) = Returns u ->
  open_result (site w lib) = Returns (map Returns texts ++ Raises e :: later)%list ->
  (import_module w lib ;;;
   pages <- open_pdf w lib ;;
   full_text <- loop_nonempty lib 0 pages "" ;;
   print_text w full_text)
  = (EvImport lib :: EvOpen lib :: extract_events lib 0 (S (length texts)), Raises e).
Proof.
  intros Hi Ho. unfold import_module, open_pdf, loop_nonempty, lift, bind.
  rewrite Hi, Ho, page_loop_raises. reflexivity.
Qed.

(** The block always starts with its import. *)
Lemma read_and_print_head (lib : string) :
  exists tr r,
    (import_module w lib ;;;
     pages <- open_pdf w lib ;;
     full_text <- loop_nonempty lib 0 pages "" ;;
     print_text w full_text)
    = (EvImport lib :: tr, r).
Proof.
  destruct (import_result (site w lib)) as [u|e] eqn:Hi.
  2:{ rewrite (read_and_print_import_raises lib e Hi). eauto. }
  destruct (open_result (site w lib)) as [pages|e] eqn:Ho.
  2:{ rewrite (read_and_print_open_raises lib u e Hi Ho). eauto. }
  destruct (pages_split pages) as [[texts ->] | (texts & e & later & ->)].
  - destruct (unprintable w (render (tagged truthy 0 texts))) eqn:Hp.
    + rewrite (read_and_print_print_raises lib u texts Hi Ho Hp). eauto.
    + rewrite (read_and_print_returns lib u texts Hi Ho Hp). simpl. eauto.
  - rewrite (read_and_print_page_raises lib u texts e later Hi Ho). eauto.
Qed.

Lemma try_except_head {A} (body : M A) (h : exn -> M A) (ev : event)
    (tr : list event) (r : outcome A) :
  body = (ev :: tr, r) ->
  hd_error (trace (try_except body h)) = Some ev.
Proof.
  intros ->. unfold try_except. destruct r as [a|e]; [reflexivity|].
  destruct (h e) as [tr' r']. reflexivity.
Qed.

Lemma main_head :
  hd_error (trace (main w)) = Some (EvImport "pdfplumber").
Proof.
  destruct (read_and_print_head "pdfplumber") as (tr & r & H).
  unfold main. eapply try_except_head. exact H.
Qed.

Lemma fallback_head :
  hd_error (trace (fallback w)) = Some (EvImport "PyPDF2").
Proof.
  destruct (read_and_print_head "PyPDF2") as (tr & r & H).
  unfold fallback. eapply try_except_head. exact H.
Qed.

(** pdfplumber imports and reads every page: the text is printed. *)
Lemma main_primary_returns (u : unit) (texts : list (option string)) :
  import_result (site w "pdfplumber") = Returns u ->
  open_result (site w "pdfplumber") = Returns (map Returns texts) ->
  unprintable w (render (tagged truthy 0 texts)) = false ->
  main w
  = ((EvImport "pdfplumber" :: EvOpen "pdfplumber"
        :: extract_events "pdfplumber" 0 (length texts))
       ++ [EvPrint (render (tagged truthy 0 texts))],
     Returns tt)%list.
Proof.
  intros Hi Ho Hp. unfold main.
  rewrite (read_and_print_returns "pdfplumber" u texts Hi Ho Hp). reflexivity.
Qed.


(** pdfplumber is not installed: one line, then the fallback, whose events
    and whose end are those of the script. *)
Lemma main_unavailable (msg : string) :
  import_result (site w "pdfplumber") = Raises (ImportError msg) ->
  main w
  = (EvImport "pdfplumber"
       :: EvPrint ("Error importing pdfplumber: " ++ msg)
       :: trace (fallback w),
     result (fallback w)).
Proof.
  intros Hi. unfold main.
  rewrite (read_and_print_import_raises "pdfplumber" _ Hi).
  unfold try_except, print, lift, bind. cbn [str_exn].
  destruct (fallback w) as [tr r]. reflexivity.
Qed.

(** The fallback lets every exception but [ImportError] through. *)
Lemma fallback_open_raises (u : unit) (msg : string) :
  import_result (site w "PyPDF2") = Returns u ->
  open_result (site w "PyPDF2") = Raises (OtherException msg) ->
  fallback w = ([EvImport "PyPDF2"; EvOpen "PyPDF2"], Raises (OtherException msg)).
Proof.
  intros Hi Ho. unfold fallback.
  rewrite (read_and_print_open_raises "PyPDF2" u _ Hi Ho). reflexivity.
Qed.



End PdfScript.

(** ** A file that is not there *)

Section MissingFile.

Import ExtractProfile.

Variable w : world.
Hypothesis opens_fail :
  forall lib u, In lib libraries_to_try ->
    import_result (site w lib) = Returns u ->
    exists e, open_result (site w lib) = Raises e.

(** A library whose open fails is reported on one line, after its import
    (and its open, when the import went through). *)
Lemma attempt_fails_early (lib : string) :
  In lib libraries_to_try ->
  exists tr,
    attempt w lib = (tr, Returns Next)
    /\ imports_of tr = [lib]
    /\ stdout_of tr = [failure_line w lib].
Proof.
  intros Hin. unfold failure_line.
  destruct (import_result (site w lib)) as [u|e] eqn:Hi.
  - destruct (opens_fail lib u Hin Hi) as [e Ho]. rewrite Ho.
    eexists. split.
    + apply attempt_raises. exact (body_open_raises w lib u e Hin Hi Ho).
    + split; reflexivity.
  - eexists. split.
    + apply attempt_raises. exact (body_import_raises w lib e Hin Hi).
    + split; reflexivity.
Qed.

Lemma for_libs_all_fail (libs : list string) :
  incl libs libraries_to_try ->
  imports_of (trace (for_libs w libs)) = libs
  /\ stdout_of (trace (for_libs w libs)) = map (failure_line w) libs.
Proof.
  induction libs as [|lib rest IH]; intros Hincl; [split; reflexivity|].
  destruct (attempt_fails_early lib) as (tr & Ha & Hi & Hs).
  { apply Hincl. now left. }
  rewrite (for_libs_next w lib rest tr Ha). unfold trace at 1 3. simpl fst.
  rewrite imports_of_app, stdout_of_app, Hi, Hs.
  destruct IH as [IHi IHs].
  { intros x Hx. apply Hincl. now right. }
  rewrite IHi, IHs. split; reflexivity.
Qed.

End MissingFile.

(** C1 (as amended).  extract_profile.py prints whether the file exists and
    goes on to its loop all the same; extract_pdf.py does not look.  On a
    host where the file is not there and, for that reason, no library that
    imports can open it, extract_profile.py still imports all three
    libraries in order, prints [File exists: False], one failure line per
    library and its last line, and returns normally; extract_pdf.py starts
    by importing pdfplumber. *)
Theorem missing_file_still_tries_every_backend (w : world) :
  file_exists w = false ->
  (forall lib u, In lib ExtractProfile.libraries_to_try ->
     import_result (site w lib) = Returns u ->
     exists e, open_result (site w lib) = Raises e) ->
  imports_of (trace (ExtractProfile.main w)) = ExtractProfile.libraries_to_try
  /\ stdout (ExtractProfile.main w)
     = ([("Trying to process PDF: " ++ ExtractProfile.pdf_path)%string;
          "File exists: False"]
          ++ map (failure_line w) ExtractProfile.libraries_to_try
          ++ ["Finished trying all libraries"])%list
  /\ result (ExtractProfile.main w) = Returns tt
  /\ hd_error (trace (ExtractPdf.main w)) = Some (EvImport "pdfplumber").
Proof.
  intros Hex Hopen.
  destruct (for_libs_all_fail w Hopen ExtractProfile.libraries_to_try) as [Hi Hs].
  { apply incl_refl. }
  unfold stdout. rewrite (main_unfold w). unfold trace, result in *.
  cbn [fst snd].
  unfold ExtractProfile.header. rewrite Hex.
  repeat split.
  - rewrite !imports_of_app, Hi. apply app_nil_r.
  - rewrite !stdout_of_app, Hs. reflexivity.
  - apply main_head.
Qed.

Lemma missing_file_still_tries_every_backend_witness :
  imports_of (trace (ExtractProfile.main Hosts.no_file)) = ExtractProfile.libraries_to_try
  /\ stdout (ExtractProfile.main Hosts.no_file)
     = ([("Trying to process PDF: " ++ ExtractProfile.pdf_path)%string;
          "File exists: False"]
          ++ map (failure_line Hosts.no_file) ExtractProfile.libraries_to_try
          ++ ["Finished trying all libraries"])%list
  /\ result (ExtractProfile.main Hosts.no_file) = Returns tt
  /\ hd_error (trace (ExtractPdf.main Hosts.no_file)) = Some (EvImport "pdfplumber").
Proof.
  apply (missing_file_still_tries_every_backend Hosts.no_file).
  - reflexivity.
  - intros lib u [<- | [<- | [<- | []]]] _; eexists; reflexivity.
Defined.

(** C1 (as stated) fails: on a host without the file both scripts import a
    library and try to open the file with it. *)
Lemma missing_file_backends_attempted :
  file_exists Hosts.no_file = false
  /\ ~ no_backend_attempted (trace (ExtractProfile.main Hosts.no_file))
  /\ ~ no_backend_attempted (trace (ExtractPdf.main Hosts.no_file)).
Proof.
  split; [reflexivity|].
  split; intros [Hi _]; vm_compute in Hi; discriminate.
Qed.

(** ** Abnormal termination *)

(** extract_profile.py always runs to its last line. *)
Lemma profile_main_total (w : world) :
  result (ExtractProfile.main w) = Returns tt
  /\ last (stdout (ExtractProfile.main w)) "" = "Finished trying all libraries".
Proof.
  unfold stdout. rewrite (main_unfold w). unfold trace, result. cbn [fst snd].
  split; [reflexivity|].
  rewrite !stdout_of_app. rewrite app_assoc. apply last_last.
Qed.

(** In extract_pdf.py an exception raised while PyPDF2 opens the file (or
    reads a page) meets no handler: the inner [try] has an [except
    ImportError] only, and the outer [except Exception] does not cover
    what is raised inside the outer [except ImportError] clause. *)
Lemma pdf_fallback_escapes (w : world) (msg cause : string) (u : unit) :
  import_result (site w "pdfplumber") = Raises (ImportError msg) ->
  import_result (site w "PyPDF2") = Returns u ->
  open_result (site w "PyPDF2") = Raises (OtherException cause) ->
  result (ExtractPdf.main w) = Raises (OtherException cause).
Proof.
  intros H1 H2 H3.
  rewrite (main_unavailable w msg H1), (fallback_open_raises w u cause H2 H3).
  reflexivity.
Qed.

(** C2.  Run of extract_pdf.py on a host without pdfplumber where PyPDF2
    rejects the file: the script prints that pdfplumber is missing and then
    ends on the exception of PyPDF2, uncaught. *)
Theorem pdf_ends_on_uncaught_exception :
  ExtractPdf.main Hosts.fallback_rejects
  = ([EvImport "pdfplumber";
      EvPrint "Error importing pdfplumber: No module named 'pdfplumber'";
      EvImport "PyPDF2"; EvOpen "PyPDF2"],
     Raises (OtherException "EOF marker not found")).
Proof. reflexivity. Qed.

(** ** An open that raises *)




(** ** First success wins *)

Section FirstSuccess.

Import ExtractProfile.

Variable w : world.


Lemma attempt_succeeds (lib : string) (u : unit) (texts : list (option string)) :
  In lib libraries_to_try ->
  import_result (site w lib) = Returns u ->
  open_result (site w lib) = Returns (map Returns texts) ->
  unprintable w (render (tagged (lib_guard lib) 0 texts)) = false ->
  attempt w lib
  = ((EvImport lib :: EvOpen lib :: extract_events lib 0 (length texts))
       ++ [EvPrint ("SUCCESS with " ++ lib ++ ":");
           EvPrint (render (tagged (lib_guard lib) 0 texts))],
     Returns Break)%list.
Proof.
  intros Hin Hi Ho Hp. apply attempt_returns. now apply body_succeeds with u.
Qed.

(** When [print] cannot encode the text, the error is caught like any
    other: after the SUCCESS line comes an error line, and the loop goes
    on. *)
Lemma attempt_print_raises (lib : string) (u : unit) (texts : list (option string)) :
  In lib libraries_to_try ->
  import_result (site w lib) = Returns u ->
  open_result (site w lib) = Returns (map Returns texts) ->
  unprintable w (render (tagged (lib_guard lib) 0 texts)) = true ->
  attempt w lib
  = ((EvImport lib :: EvOpen lib :: extract_events lib 0 (length texts))
       ++ [EvPrint ("SUCCESS with " ++ lib ++ ":");
           EvPrint ("Error with " ++ lib ++ ": "
                      ++ codec_message w (render (tagged (lib_guard lib) 0 texts)))],
     Returns Next)%list.
Proof.
  intros Hin Hi Ho Hp.
  rewrite (attempt_raises w lib _ _ (body_print_raises w lib u texts Hin Hi Ho Hp)).
  cbn [report]. now rewrite <- app_assoc.
Qed.

(** An attempt starts with the import of its library. *)
Lemma attempt_head (lib : string) :
  In lib libraries_to_try ->
  hd_error (trace (attempt w lib)) = Some (EvImport lib).
Proof.
  intros Hin.
  destruct (import_result (site w lib)) as [u|e] eqn:Hi.
  2:{ now rewrite (attempt_raises w lib _ _ (body_import_raises w lib e Hin Hi)). }
  destruct (open_result (site w lib)) as [pages|e] eqn:Ho.
  2:{ now rewrite (attempt_raises w lib _ _ (body_open_raises w lib u e Hin Hi Ho)). }
  destruct (pages_split pages) as [[texts ->] | (texts & e & later & ->)].
  - destruct (unprintable w (render (tagged (lib_guard lib) 0 texts))) eqn:Hp.
    + now rewrite (attempt_print_raises lib u texts Hin Hi Ho Hp).
    + now rewrite (attempt_succeeds lib u texts Hin Hi Ho Hp).
  - now rewrite (attempt_raises w lib _ _
                   (body_page_raises w lib u texts e later Hin Hi Ho)).
Qed.

End FirstSuccess.

(** A page without text adds nothing under the guard. *)
Lemma tagged_truthy_blank (texts : list (option string)) :
  forallb (fun t => negb (truthy t)) texts = true ->
  forall i, tagged truthy i texts = [].
Proof.
  induction texts as [|t rest IH]; intros H i; [reflexivity|].
  simpl in H. apply andb_prop in H. destruct H as [Ht Hr].
  simpl. destruct (truthy t); [discriminate | now apply IH].
Qed.

(** ** Texts that every stdout can print *)

Lemma unprintable_append (w : world) (a b : string) :
  unprintable w (a ++ b) = unprintable w a || unprintable w b.
Proof.
  induction a as [|c a IH]; [reflexivity|].
  cbn [append unprintable]. now rewrite IH, orb_assoc.
Qed.

Lemma ascii_only_append (a b : string) :
  ascii_only (a ++ b) = ascii_only a && ascii_only b.
Proof.
  induction a as [|c a IH]; [reflexivity|].
  cbn [append ascii_only]. now rewrite IH, andb_assoc.
Qed.

Lemma ascii_only_printable (w : world) (s : string) :
  ascii_only s = true -> unprintable w s = false.
Proof.
  induction s as [|c s IH]; [reflexivity|].
  cbn [ascii_only unprintable]. intros H. apply andb_prop in H.
  destruct H as [Hc Hs]. now rewrite Hc, (IH Hs).
Qed.

Lemma ascii_only_uint (d : uint) : ascii_only (NilEmpty.string_of_uint d) = true.
Proof. induction d; simpl; auto. Qed.

Lemma ascii_only_str_nat (n : nat) : ascii_only (str_nat n) = true.
Proof.
  unfold str_nat, NilZero.string_of_uint.
  destruct (Nat.to_uint n); try reflexivity; apply (ascii_only_uint (_ _)).
Qed.

(** The blocks of pages without text hold markers and at most the word
    None. *)
Lemma ascii_only_blank (guard : option string -> bool) (texts : list (option string)) :
  forallb (fun t => negb (truthy t)) texts = true ->
  forall i, ascii_only (render (tagged guard i texts)) = true.
Proof.
  induction texts as [|t rest IH]; intros H i; [reflexivity|].
  cbn [forallb] in H. apply andb_prop in H. destruct H as [Ht Hr].
  cbn [tagged]. destruct (guard t); [|now apply IH].
  cbn [render]. rewrite ascii_only_append, (IH Hr), andb_true_r.
  unfold block. cbn [fst snd].
  rewrite !ascii_only_append, ascii_only_str_nat.
  destruct t as [[|c t]|]; [reflexivity | discriminate | reflexivity].
Qed.




(** ** A document without text *)

(** C4 (as amended).  Neither script tests whether the accumulated text is
    empty.  When a library imports, opens the file and every page comes back
    empty or [None], that library counts as the success: extract_profile.py
    prints its SUCCESS line and the text its loop accumulated, and leaves
    the loop without touching the rest of the list; extract_pdf.py prints
    the empty string and imports nothing but pdfplumber. *)
Theorem blank_document_is_a_success (w : world) (lib : string) (rest : list string)
    (u : unit) (texts : list (option string)) :
  In lib ExtractProfile.libraries_to_try ->
  import_result (site w lib) = Returns u ->
  open_result (site w lib) = Returns (map Returns texts) ->
  forallb (fun t => negb (truthy t)) texts = true ->
  (exists tr,
     ExtractProfile.for_libs w (lib :: rest) = (tr, Returns tt)
     /\ imports_of tr = [lib]
     /\ stdout_of tr
        = [("SUCCESS with " ++ lib ++ ":")%string;
           render (tagged (ExtractProfile.lib_guard lib) 0 texts)])
  /\ (lib = "pdfplumber" ->
      render (tagged (ExtractProfile.lib_guard lib) 0 texts) = ""
      /\ stdout (ExtractPdf.main w) = [""]
      /\ imports_of (trace (ExtractPdf.main w)) = ["pdfplumber"]
      /\ result (ExtractPdf.main w) = Returns tt).
Proof.
  intros Hin Hi Ho Hblank.
  assert (Hp : forall g, unprintable w (render (tagged g 0 texts)) = false).
  { intros g. apply ascii_only_printable. now apply ascii_only_blank. }
  split.
  - eexists. split.
    + apply for_libs_break. exact (attempt_succeeds w lib u texts Hin Hi Ho (Hp _)).
    + rewrite imports_of_app, stdout_of_app.
      cbn [imports_of stdout_of app].
      rewrite imports_of_extract, stdout_of_extract. split; reflexivity.
  - intros ->. unfold stdout.
    rewrite (main_primary_returns w u texts Hi Ho (Hp _)).
    unfold trace, result. cbn [fst snd].
    rewrite imports_of_app, stdout_of_app.
    cbn [imports_of stdout_of app].
    rewrite imports_of_extract, stdout_of_extract.
    change (ExtractProfile.lib_guard "pdfplumber") with truthy.
    rewrite (tagged_truthy_blank texts Hblank 0). repeat split.
Qed.

Lemma blank_document_is_a_success_witness :
  exists tr,
    ExtractProfile.for_libs Hosts.scanned ["pdfplumber"]
    = (tr, Returns tt)
    /\ imports_of tr = ["pdfplumber"]
    /\ stdout_of tr = ["SUCCESS with pdfplumber:"; ""].
Proof.
  apply (blank_document_is_a_success Hosts.scanned "pdfplumber" []
           tt [None; None]).
  - simpl. auto.
  - reflexivity.
  - reflexivity.
  - reflexivity.
Defined.

(** C4 (as stated) fails: on a scanned document every page is empty under
    every library; extract_pdf.py prints the empty text of pdfplumber as its
    result and does not go on to PyPDF2, and extract_profile.py prints a
    SUCCESS for its first library and does not go on to the next. *)
Lemma empty_text_printed_as_success :
  ExtractPdf.main Hosts.scanned
  = ([EvImport "pdfplumber"; EvOpen "pdfplumber";
      EvExtract "pdfplumber" 0; EvExtract "pdfplumber" 1; EvPrint ""],
     Returns tt)
  /\ ~ In "PyPDF2" (imports_of (trace (ExtractPdf.main Hosts.scanned)))
  /\ hd_error (stdout_of (trace (ExtractProfile.for_libs Hosts.scanned
                                   ExtractProfile.libraries_to_try)))
     = Some "SUCCESS with pypdf:"
  /\ ~ In "PyPDF2" (imports_of (trace (ExtractProfile.main Hosts.scanned))).
Proof.
  split; [reflexivity|].
  split; [vm_compute; intros [H | []]; discriminate|].
  split; [reflexivity|].
  vm_compute; intros [H | []]; discriminate.
Qed.

(** ** A page that raises *)



(** ** Page numbers *)

Section Numbering.

Variable guard : option string -> bool.

(** A block carries the position of its page, and only guarded pages get
    one. *)
Lemma tagged_in (texts : list (option string)) :
  forall i n t,
    In (n, t) (tagged guard i texts) ->
    i + 1 <= n <= i + length texts
    /\ exists o, nth_error texts (n - 1 - i) = Some o
                 /\ guard o = true /\ t = str_opt o.
Proof.
  induction texts as [|o rest IH]; intros i n t Hin; [destruct Hin|].
  simpl in Hin.
  assert (Hrest : In (n, t) (tagged guard (S i) rest) ->
                  i + 1 <= n <= i + length (o :: rest)
                  /\ exists o', nth_error (o :: rest) (n - 1 - i) = Some o'
                                /\ guard o' = true /\ t = str_opt o').
  { intros H. destruct (IH (S i) n t H) as [Hb (o' & Hn & Hg & Ht)].
    simpl length. split; [lia|].
    exists o'. replace (n - 1 - i) with (S (n - 1 - S i)) by lia.
    simpl. auto. }
  destruct (guard o) eqn:Hg; [|auto].
  destruct Hin as [Heq | Hin]; [|auto].
  inversion Heq; subst. simpl length. split; [lia|].
  exists o. replace (i + 1 - 1 - i) with 0 by lia. simpl. auto.
Qed.

Lemma tagged_sorted (texts : list (option string)) :
  forall i, StronglySorted lt (map fst (tagged guard i texts)).
Proof.
  induction texts as [|o rest IH]; intros i; [constructor|].
  simpl. destruct (guard o); [|apply IH].
  simpl. constructor; [apply IH|].
  apply Forall_forall. intros n Hn.
  apply in_map_iff in Hn. destruct Hn as ([n' t] & <- & Hin).
  apply tagged_in in Hin. simpl. lia.
Qed.

Lemma tagged_all (texts : list (option string)) :
  forall i,
    map fst (tagged guard i texts) = seq (i + 1) (length texts)
    <-> forallb guard texts = true.
Proof.
  induction texts as [|o rest IH]; intros i; [simpl; tauto|].
  simpl. destruct (guard o) eqn:Hg.
  - simpl. replace (S (i + 1)) with (S i + 1) by lia.
    rewrite <- (IH (S i)). split; [intros H; now inversion H | intros ->; reflexivity].
  - split; [|discriminate]. intros H. exfalso.
    assert (Hin : In (i + 1) (map fst (tagged guard (S i) rest))).
    { rewrite H. now left. }
    apply in_map_iff in Hin. destruct Hin as ([n t] & Hn & Hin).
    apply tagged_in in Hin. simpl in Hn. lia.
Qed.

End Numbering.

(** C8 (as amended).  When every page returns, a page loop yields the
    blocks of the pages that pass its guard, the block of the i-th page
    carrying the number i counted from 1.  The numbers in the output are
    strictly increasing and lie between 1 and the page count; they are the
    contiguous run 1..page count exactly when no page is left out. *)
Theorem page_numbers_follow_positions (guard : option string -> bool) (m : string)
    (texts : list (option string)) :
  page_loop guard m 0 (map Returns texts) ""
  = (extract_events m 0 (length texts), Returns (render (tagged guard 0 texts)))
  /\ (forall n t,
        In (n, t) (tagged guard 0 texts) ->
        1 <= n <= length texts
        /\ exists o, nth_error texts (n - 1) = Some o
                     /\ guard o = true /\ t = str_opt o)
  /\ StronglySorted lt (map fst (tagged guard 0 texts))
  /\ (map fst (tagged guard 0 texts) = seq 1 (length texts)
      <-> forallb guard texts = true).
Proof.
  split; [apply page_loop_returns|].
  split.
  { intros n t Hin. destruct (tagged_in guard texts 0 n t Hin) as [Hb (o & Hn & Hg)].
    split; [lia|]. exists o. now rewrite Nat.sub_0_r in Hn. }
  split; [apply tagged_sorted|].
  apply (tagged_all guard texts 0).
Qed.

(** C8 (as stated) fails under the guarded loops: of three pages with an
    empty one in the middle, extract_pdf.py prints the blocks numbered 1 and
    3, which are neither contiguous nor as many as the pages. *)
Lemma page_numbers_skip_blank_pages :
  open_result (site Hosts.middle_blank "pdfplumber")
  = Returns (map Returns [Some "a"; None; Some "c"])
  /\ stdout (ExtractPdf.main Hosts.middle_blank) = [render [(1, "a"); (3, "c")]]
  /\ map fst (tagged truthy 0 [Some "a"; None; Some "c"]) = [1; 3]
  /\ map fst (tagged truthy 0 [Some "a"; None; Some "c"]) <> seq 1 3.
Proof.
  repeat split. discriminate.
Qed.

(** ** Pages without text *)

(** Under the guard a page without text adds nothing, neither marker nor
    text, and the pages after it keep their numbers. *)
Lemma guarded_loop_omits_blank (before after : list (option string)) (o : option string) :
  truthy o = false ->
  forall i,
    render (tagged truthy i (before ++ o :: after))
    = render (tagged truthy i before)
      ++ render (tagged truthy (i + length before + 1) after).
Proof.
  intros Ho. induction before as [|b before IH]; intros i.
  - simpl. rewrite Ho. now replace (i + 0 + 1) with (S i) by lia.
  - rewrite <- app_comm_cons. cbn [tagged length].
    replace (i + S (length before) + 1) with (S i + length before + 1) by lia.
    destruct (truthy b).
    + cbn [render]. now rewrite IH, append_assoc.
    + apply IH.
Qed.

(** C6.  Run of extract_profile.py on a three-page document whose middle
    page has no text.  The pypdf branch has no [if page_text:] and prints a
    marker and an empty text for page 2; the PyPDF2 branch, for a page that
    returns [None], prints the marker followed by the word None.  The
    pdfplumber branch and extract_pdf.py leave the page out. *)
Theorem unguarded_loops_print_blank_pages :
  stdout_of (trace (ExtractProfile.attempt Hosts.middle_blank "pypdf"))
  = ["SUCCESS with pypdf:"; render [(1, "a"); (2, ""); (3, "c")]]
  /\ stdout_of (trace (ExtractProfile.attempt Hosts.middle_blank "PyPDF2"))
     = ["SUCCESS with PyPDF2:"; render [(1, "a"); (2, "None"); (3, "c")]]
  /\ stdout_of (trace (ExtractProfile.attempt Hosts.middle_blank "pdfplumber"))
     = ["SUCCESS with pdfplumber:"; render [(1, "a"); (3, "c")]]
  /\ stdout (ExtractPdf.main Hosts.middle_blank) = [render [(1, "a"); (3, "c")]]
  /\ In (render [(1, "a"); (2, ""); (3, "c")])
        (stdout (ExtractProfile.main Hosts.middle_blank))
  /\ render [(2, "")] = "=== PAGE 2 ===" ++ nl ++ nl ++ nl.
Proof.
  repeat split. vm_compute. auto 10.
Qed.

(** ** Reading markers *)

Lemma strip_prefix_app (p s : string) : strip_prefix p (p ++ s) = Some s.
Proof.
  induction p as [|a p IH]; simpl; [reflexivity|].
  now rewrite Ascii.eqb_refl.
Qed.

Lemma strip_prefix_append (p q s : string) :
  strip_prefix (p ++ q) s
  = match strip_prefix p s with
    | Some r => strip_prefix q r
    | None => None
    end.
Proof.
  revert s. induction p as [|a p IH]; intros s; simpl; [reflexivity|].
  destruct s as [|b s]; [reflexivity|].
  destruct (Ascii.eqb a b); [apply IH | reflexivity].
Qed.

(** A prefix without newline is looked for in [s] alone, whatever follows
    the newline after [s]. *)
Lemma strip_prefix_tail (p s x : string) :
  one_line p = true ->
  strip_prefix p (s ++ nl ++ x)
  = match strip_prefix p s with
    | Some r => Some (r ++ nl ++ x)
    | None => None
    end.
Proof.
  revert s. induction p as [|a p IH]; intros s Hp; [reflexivity|].
  simpl in Hp. apply andb_prop in Hp. destruct Hp as [Ha Hp].
  destruct s as [|b s].
  - simpl. apply negb_true_iff in Ha. now rewrite Ha.
  - simpl. destruct (Ascii.eqb a b); [now apply IH | reflexivity].
Qed.

Lemma span_digits_tail (s x : string) :
  span_digits (s ++ nl ++ x)
  = (fst (span_digits s), snd (span_digits s) ++ nl ++ x).
Proof.
  induction s as [|c s IH]; [reflexivity|].
  cbn [append span_digits]. destruct (is_digit c); [|reflexivity].
  rewrite IH. now destruct (span_digits s).
Qed.

Lemma span_digits_app (d s : string) :
  all_digits d = true ->
  fst (span_digits s) = "" ->
  span_digits (d ++ s) = (d, s).
Proof.
  intros Hd Hs. induction d as [|c d IH].
  - simpl. destruct s as [|c s]; [reflexivity|].
    simpl in *. destruct (is_digit c); [|reflexivity].
    destruct (span_digits s). discriminate.
  - simpl in Hd. apply andb_prop in Hd. destruct Hd as [Hc Hd].
    simpl. now rewrite Hc, IH.
Qed.

Lemma all_digits_uint (d : uint) : all_digits (NilEmpty.string_of_uint d) = true.
Proof. induction d; simpl; auto. Qed.

Lemma all_digits_str_nat (n : nat) : all_digits (str_nat n) = true.
Proof.
  unfold str_nat, NilZero.string_of_uint.
  destruct (Nat.to_uint n); try reflexivity; apply (all_digits_uint (_ _)).
Qed.

Lemma read_str_nat (n : nat) :
  exists u, NilZero.uint_of_string (str_nat n) = Some u /\ Nat.of_uint u = n.
Proof.
  unfold str_nat. pose proof (DecimalNat.Unsigned.of_to n) as Hn.
  destruct (Nat.to_uint n) as [| | | | | | | | | |] eqn:E.
  1:{ exists (D0 Nil). split; [reflexivity | exact Hn]. }
  all: eexists; split; [apply NilZero.usu; discriminate | exact Hn].
Qed.

(** A block starts with a marker line that reads back as its number. *)
Lemma parse_marker_block (n : nat) (t rest : string) :
  parse_marker (block (n, t) ++ rest) = Some (n, t ++ nl ++ nl ++ rest).
Proof.
  unfold block, parse_marker. cbn [fst snd].
  rewrite !append_assoc, strip_prefix_app.
  rewrite span_digits_app by (apply all_digits_str_nat || reflexivity).
  destruct (read_str_nat n) as (u & -> & ->).
  change (" ===" ++ nl ++ t ++ nl ++ nl ++ rest)
    with ((" ===" ++ nl) ++ t ++ nl ++ nl ++ rest).
  now rewrite strip_prefix_app.
Qed.

Lemma strip_newline_tail (r x : string) :
  strip_prefix nl (r ++ nl) = None -> strip_prefix nl (r ++ nl ++ x) = None.
Proof.
  destruct r as [|c r]; [discriminate|].
  cbn [nl strip_prefix append].
  destruct (Ascii.eqb (ascii_of_nat 10) c); [discriminate | reflexivity].
Qed.

(** Whether a marker line starts at the head of [s ++ nl] does not depend
    on what comes after the newline: the line has one newline, its last
    character. *)
Lemma parse_marker_tail (s x : string) :
  parse_marker (s ++ nl) = None -> parse_marker (s ++ nl ++ x) = None.
Proof.
  unfold parse_marker.
  change (s ++ nl) with (s ++ nl ++ "").
  rewrite !strip_prefix_tail by reflexivity.
  destruct (strip_prefix "=== PAGE " s) as [r|]; [|reflexivity].
  rewrite !span_digits_tail.
  destruct (NilZero.uint_of_string (fst (span_digits r))); [|reflexivity].
  rewrite !strip_prefix_append, !strip_prefix_tail by reflexivity.
  destruct (strip_prefix " ===" (snd (span_digits r))) as [r3|]; [|reflexivity].
  change (r3 ++ nl ++ "") with (r3 ++ nl).
  intros H. rewrite strip_newline_tail; [reflexivity|].
  now destruct (strip_prefix nl (r3 ++ nl)).
Qed.

Lemma chop_separator_app (t : string) : chop_separator (t ++ nl ++ nl) = t.
Proof.
  induction t as [|c t IH]; [reflexivity|].
  cbn [append chop_separator]. rewrite IH.
  destruct (String.eqb_spec (String c (t ++ nl ++ nl)) (nl ++ nl)) as [E|]; [|reflexivity].
  exfalso. apply (f_equal String.length) in E.
  simpl in E. rewrite length_append in E. simpl in E. lia.
Qed.

(** The text of a page is read up to the marker of the next page. *)
Lemma take_body_text (t rest : string) :
  marker_free t = true ->
  rest = "" \/ (exists x, parse_marker rest = Some x) ->
  take_body (t ++ nl ++ nl ++ rest) = (t ++ nl ++ nl, rest).
Proof.
  unfold marker_free. intros Hfree Hrest. apply negb_true_iff in Hfree.
  induction t as [|c t IH].
  - simpl. destruct rest as [|c rest]; [reflexivity|].
    destruct Hrest as [Hrest | [x Hx]]; [discriminate|].
    cbn [take_body]. now rewrite Hx.
  - cbn [append has_marker] in Hfree.
    destruct (parse_marker (String c (t ++ nl))) eqn:Hp; [discriminate|].
    pose proof (parse_marker_tail (String c t) (nl ++ rest) Hp) as Hp'.
    cbn [append] in Hp'. cbn [append take_body].
    now rewrite Hp', (IH Hfree).
Qed.

(** ** Round trip *)

Lemma length_render (ps : list (nat * string)) :
  length ps <= String.length (render ps).
Proof.
  induction ps as [|p ps IH]; [apply Nat.le_refl|].
  cbn [render length]. rewrite length_append.
  assert (1 <= String.length (block p)) by (unfold block; simpl; lia).
  lia.
Qed.

Lemma parse_marker_render (ps : list (nat * string)) :
  render ps = "" \/ exists x, parse_marker (render ps) = Some x.
Proof.
  destruct ps as [|[n t] ps]; [now left|].
  right. cbn [render]. rewrite parse_marker_block. eauto.
Qed.

Lemma split_pages_render (ps : list (nat * string)) :
  forallb (fun p => marker_free (snd p)) ps = true ->
  forall fuel, length ps <= fuel -> split_pages fuel (render ps) = ps.
Proof.
  induction ps as [|[n t] ps IH]; intros Hfree fuel Hfuel.
  - destruct fuel; reflexivity.
  - destruct fuel as [|fuel]; [simpl in Hfuel; lia|].
    cbn [forallb snd] in Hfree. apply andb_prop in Hfree.
    destruct Hfree as [Ht Hps].
    cbn [render split_pages]. rewrite parse_marker_block.
    rewrite (take_body_text t (render ps) Ht (parse_marker_render ps)).
    rewrite chop_separator_app, (IH Hps) by (simpl in Hfuel; lia).
    reflexivity.
Qed.

(** C9 (as amended).  When every page returns and no text that the loop
    appends has a marker line starting inside it (also not one completed by
    the newline that follows the text), splitting the accumulated text on
    its markers gives back the page numbers and the texts that were
    appended, in order. *)
Theorem resplit_gives_back_pages (guard : option string -> bool) (m : string)
    (texts : list (option string)) :
  forallb (fun p => marker_free (snd p)) (tagged guard 0 texts) = true ->
  exists text,
    page_loop guard m 0 (map Returns texts) ""
    = (extract_events m 0 (length texts), Returns text)
    /\ text = render (tagged guard 0 texts)
    /\ resplit text = tagged guard 0 texts.
Proof.
  intros Hfree. exists (render (tagged guard 0 texts)).
  split; [apply page_loop_returns|]. split; [reflexivity|].
  unfold resplit. apply split_pages_render; [exact Hfree | apply length_render].
Qed.

Lemma resplit_gives_back_pages_witness :
  exists text,
    page_loop truthy "pdfplumber" 0 (map Returns [Some "a"; None; Some "c"]) ""
    = (extract_events "pdfplumber" 0 3, Returns text)
    /\ text = render [(1, "a"); (3, "c")]
    /\ resplit text = [(1, "a"); (3, "c")].
Proof.
  apply (resplit_gives_back_pages truthy "pdfplumber" [Some "a"; None; Some "c"]).
  reflexivity.
Defined.

(** C9 (as stated) fails: a page whose text has a line of the form of a
    marker is printed as one block and read back as two pages; the printed
    text is the same as that of a two-page document, so that no reader can
    tell them apart. *)
Lemma marker_in_text_breaks_roundtrip :
  stdout (ExtractPdf.main Hosts.marker_in_text)
  = [render [(1, "a" ++ nl ++ nl ++ "=== PAGE 2 ===" ++ nl ++ "b")]]
  /\ resplit (render [(1, "a" ++ nl ++ nl ++ "=== PAGE 2 ===" ++ nl ++ "b")])
     = [(1, "a"); (2, "b")]
  /\ resplit (render [(1, "a" ++ nl ++ nl ++ "=== PAGE 2 ===" ++ nl ++ "b")])
     <> [(1, "a" ++ nl ++ nl ++ "=== PAGE 2 ===" ++ nl ++ "b")]
  /\ render [(1, "a" ++ nl ++ nl ++ "=== PAGE 2 ===" ++ nl ++ "b")]
     = render [(1, "a"); (2, "b")].
Proof.
  repeat split. vm_compute. discriminate.
Qed.

(** ** The outcome of a block *)

Section Reads.

Variable guard : option string -> bool.
Variable w : world.
Variable lib : string.

Lemma reads_import_raises (e : exn) :
  import_result (site w lib) = Raises e -> reads guard w lib = Raises e.
Proof.
  intros Hi. unfold reads, import_module, lift, bind, result. now rewrite Hi.
Qed.

Lemma reads_open_raises (u : unit) (e : exn) :
  import_result (site w lib) = Returns u ->
  open_result (site w lib) = Raises e ->
  reads guard w lib = Raises e.
Proof.
  intros Hi Ho. unfold reads, import_module, open_pdf, lift, bind, result.
  now rewrite Hi, Ho.
Qed.

Lemma reads_page_raises (u : unit) (texts : list (option string)) (e : exn)
    (later : list page) :
  import_result (site w lib) = Returns u ->
  open_result (site w lib) = Returns (map Returns texts ++ Raises e :: later)%list ->
  reads guard w lib = Raises e.
Proof.
  intros Hi Ho. unfold reads, import_module, open_pdf, lift, bind, result.
  now rewrite Hi, Ho, page_loop_raises.
Qed.

Lemma reads_returns (u : unit) (texts : list (option string)) :
  import_result (site w lib) = Returns u ->
  open_result (site w lib) = Returns (map Returns texts) ->
  reads guard w lib = Returns (render (tagged guard 0 texts)).
Proof.
  intros Hi Ho. unfold reads, import_module, open_pdf, lift, bind, result.
  now rewrite Hi, Ho, page_loop_returns.
Qed.

End Reads.

Lemma imports_of_block (lib : string) (n : nat) (tail : list event) :
  imports_of (EvImport lib :: EvOpen lib :: extract_events lib 0 n ++ tail)
  = lib :: imports_of tail.
Proof. cbn [imports_of]. now rewrite imports_of_app, imports_of_extract. Qed.

Lemma opens_of_block (lib : string) (n : nat) (tail : list event) :
  opens_of (EvImport lib :: EvOpen lib :: extract_events lib 0 n ++ tail)
  = lib :: opens_of tail.
Proof. cbn [opens_of]. now rewrite opens_of_app, opens_of_extract. Qed.

Lemma stdout_of_block (lib : string) (n : nat) (tail : list event) :
  stdout_of (EvImport lib :: EvOpen lib :: extract_events lib 0 n ++ tail)
  = stdout_of tail.
Proof. cbn [stdout_of]. now rewrite stdout_of_app, stdout_of_extract. Qed.

(** ** extract_profile.py, read off the outcomes of the blocks *)

Section ProfileByReads.

Import ExtractProfile.

Variable w : world.

Lemma attempt_by_reads (lib : string) :
  In lib libraries_to_try ->
  exists tr,
    attempt w lib
    = (tr, Returns match reads (lib_guard lib) w lib with
                   | Returns text => if unprintable w text then Next else Break
                   | Raises _ => Next
                   end)
    /\ imports_of tr = [lib]
    /\ opens_of tr = (if imports_fine w lib then [lib] else [])
    /\ stdout_of tr
       = match reads (lib_guard lib) w lib with
         | Returns text =>
             if unprintable w text
             then [("SUCCESS with " ++ lib ++ ":")%string;
                   ("Error with " ++ lib ++ ": " ++ codec_message w text)%string]
             else [("SUCCESS with " ++ lib ++ ":")%string; text]
         | Raises e => [report lib e]
         end.
Proof.
  intros Hin. unfold imports_fine.
  destruct (import_result (site w lib)) as [u|e] eqn:Hi.
  2:{ rewrite (reads_import_raises _ w lib e Hi).
      eexists. split; [exact (attempt_raises w lib _ _ (body_import_raises w lib e Hin Hi))|].
      repeat split. }
  destruct (open_result (site w lib)) as [pages|e] eqn:Ho.
  2:{ rewrite (reads_open_raises _ w lib u e Hi Ho).
      eexists. split; [exact (attempt_raises w lib _ _ (body_open_raises w lib u e Hin Hi Ho))|].
      repeat split. }
  destruct (pages_split pages) as [[texts ->] | (texts & e & later & ->)].
  - rewrite (reads_returns _ w lib u texts Hi Ho).
    destruct (unprintable w (render (tagged (lib_guard lib) 0 texts))) eqn:Hp.
    + eexists. split; [exact (attempt_print_raises w lib u texts Hin Hi Ho Hp)|].
      rewrite <- !app_comm_cons.
      rewrite imports_of_block, opens_of_block, stdout_of_block. repeat split.
    + eexists. split; [exact (attempt_succeeds w lib u texts Hin Hi Ho Hp)|].
      rewrite <- !app_comm_cons.
      rewrite imports_of_block, opens_of_block, stdout_of_block. repeat split.
  - rewrite (reads_page_raises _ w lib u texts e later Hi Ho).
    eexists. split.
    { exact (attempt_raises w lib _ _ (body_page_raises w lib u texts e later Hin Hi Ho)). }
    rewrite <- !app_comm_cons.
    rewrite imports_of_block, opens_of_block, stdout_of_block. repeat split.
Qed.

Lemma for_libs_by_reads (libs : list string) :
  incl libs libraries_to_try ->
  imports_of (trace (for_libs w libs)) = tried w libs
  /\ opens_of (trace (for_libs w libs)) = filter (imports_fine w) (tried w libs)
  /\ stdout_of (trace (for_libs w libs)) = loop_lines w libs.
Proof.
  induction libs as [|lib rest IH]; intros Hincl; [repeat split|].
  destruct (attempt_by_reads lib) as (tr & Ha & Hi & Ho & Hs).
  { apply Hincl. now left. }
  destruct IH as (IHi & IHo & IHs).
  { intros x Hx. apply Hincl. now right. }
  assert (Hnext : attempt w lib = (tr, Returns Next) ->
          imports_of (trace (for_libs w (lib :: rest)))
          = lib :: tried w rest
          /\ opens_of (trace (for_libs w (lib :: rest)))
             = ((if imports_fine w lib then [lib] else [])
                  ++ filter (imports_fine w) (tried w rest))%list
          /\ stdout_of (trace (for_libs w (lib :: rest)))
             = (stdout_of tr ++ loop_lines w rest)%list).
  { intros Hn. rewrite (for_libs_next w lib rest tr Hn). unfold trace in *. cbn [fst].
    now rewrite imports_of_app, opens_of_app, stdout_of_app, Hi, Ho, IHi, IHo, IHs. }
  cbn [tried loop_lines filter].
  destruct (reads (lib_guard lib) w lib) as [text|e].
  - destruct (unprintable w text).
    + destruct (Hnext Ha) as (-> & -> & ->). rewrite Hs.
      destruct (imports_fine w lib); repeat split.
    + rewrite (for_libs_break w lib rest tr Ha). unfold trace. cbn [fst].
      rewrite Hi, Ho, Hs. destruct (imports_fine w lib); repeat split.
  - destruct (Hnext Ha) as (-> & -> & ->). rewrite Hs.
    destruct (imports_fine w lib); repeat split.
Qed.


End ProfileByReads.

Lemma header_quiet (w : world) :
  imports_of (ExtractProfile.header w) = []
  /\ opens_of (ExtractProfile.header w) = [].
Proof. unfold ExtractProfile.header. destruct (file_exists w); split; reflexivity. Qed.


Lemma main_imports_opens (w : world) :
  imports_of (trace (ExtractProfile.main w)) = tried w ExtractProfile.libraries_to_try
  /\ opens_of (trace (ExtractProfile.main w))
     = filter (imports_fine w) (tried w ExtractProfile.libraries_to_try).
Proof.
  destruct (for_libs_by_reads w ExtractProfile.libraries_to_try (incl_refl _))
    as (Hi & Ho & _).
  destruct (header_quiet w) as [Hhi Hho].
  rewrite (main_unfold w). unfold trace in *. cbn [fst].
  rewrite !imports_of_app, !opens_of_app, Hi, Ho, Hhi, Hho.
  cbn [imports_of opens_of]. rewrite !app_nil_r. split; reflexivity.
Qed.




(** X4.  extract_profile.py tries to open the file only with a library that
    it has imported and whose import went through. *)
Theorem profile_opens_only_imported (w : world) (lib : string) :
  In lib (opens_of (trace (ExtractProfile.main w))) ->
  In lib (imports_of (trace (ExtractProfile.main w)))
  /\ exists u, import_result (site w lib) = Returns u.
Proof.
  destruct (main_imports_opens w) as [Hi Ho]. rewrite Hi, Ho.
  intros Hin. apply filter_In in Hin. destruct Hin as [Hin Hfine].
  split; [exact Hin|].
  unfold imports_fine in Hfine.
  destruct (import_result (site w lib)) as [u|e]; [now exists u | discriminate].
Qed.

Lemma profile_opens_only_imported_witness :
  In "PyPDF2" (imports_of (trace (ExtractProfile.main Hosts.plumber_rejects)))
  /\ exists u, import_result (site Hosts.plumber_rejects "PyPDF2") = Returns u.
Proof.
  apply (profile_opens_only_imported Hosts.plumber_rejects "PyPDF2").
  vm_compute. auto.
Defined.

(** ** extract_pdf.py, read off the outcomes of the blocks *)

Section PdfByReads.

Import ExtractPdf.

Variable w : world.




End PdfByReads.




(** ** More on the page loops *)

(** X8.  A page loop over the pages [a] followed by the pages [b] is the
    loop over [a] followed by the loop over [b], which starts from the text
    accumulated over [a] and goes on counting where [a] ended; if a page of
    [a] raises, [b] is not touched. *)
Theorem page_loop_app (guard : option string -> bool) (m : string)
    (a b : list page) :
  forall i text,
    page_loop guard m i (a ++ b) text
    = (t <- page_loop guard m i a text ;; page_loop guard m (i + length a) b t).
Proof.
  induction a as [|p a IH]; intros i text.
  - rewrite app_nil_l. cbn [page_loop length]. rewrite Nat.add_0_r.
    unfold ret, bind. now destruct (page_loop guard m i b text).
  - rewrite <- app_comm_cons. cbn [page_loop length].
    unfold extract_text, lift.
    destruct p as [t|e]; [|reflexivity].
    unfold bind at 1 2. rewrite IH.
    replace (S i + length a) with (i + S (length a)) by lia.
    unfold bind.
    destruct (page_loop guard m (S i) a _) as [tr [t'|e]]; [|reflexivity].
    destruct (page_loop guard m (i + S (length a)) b t') as [tr' r].
    now rewrite app_assoc.
Qed.

(** X9.  On a document none of whose pages comes back empty or [None], the
    loop with [if page_text:] and the loop without it do the same: the five
    loops of the two scripts differ on blank pages only. *)
Theorem loops_agree_without_blank_pages (m : string) (pages : list page) :
  forallb no_blank pages = true ->
  forall i text,
    loop_nonempty m i pages text = loop_every m i pages text.
Proof.
  unfold loop_nonempty, loop_every.
  induction pages as [|p pages IH]; intros H i text; [reflexivity|].
  cbn [forallb] in H. apply andb_prop in H. destruct H as [Hp Hps].
  cbn [page_loop]. unfold extract_text, lift, bind.
  destruct p as [t|e]; [|reflexivity].
  cbn [no_blank] in Hp. rewrite Hp. now rewrite (IH Hps).
Qed.

Lemma loops_agree_without_blank_pages_witness :
  loop_nonempty "PyPDF2" 0 [Hosts.text_page "a"; Hosts.text_page "b"] ""
  = loop_every "PyPDF2" 0 [Hosts.text_page "a"; Hosts.text_page "b"] "".
Proof.
  apply (loops_agree_without_blank_pages "PyPDF2"
           [Hosts.text_page "a"; Hosts.text_page "b"]).
  reflexivity.
Defined.

(** X10.  When every page returns, a loop appends one block per page that
    passes its guard, so that under [if page_text:] the blocks and the blank
    pages add up to the pages of the document, and no loop appends more
    blocks than there are pages. *)
Theorem blocks_count (guard : option string -> bool) (m : string)
    (texts : list (option string)) (i : nat) (text : string) :
  page_loop guard m i (map Returns texts) text
  = (extract_events m i (length texts),
     Returns (text ++ render (tagged guard i texts)))
  /\ length (tagged guard i texts) = length (filter guard texts)
  /\ length (tagged guard i texts) <= length texts
  /\ length (tagged truthy i texts)
     + length (filter (fun t => negb (truthy t)) texts)
     = length texts.
Proof.
  split; [apply page_loop_returns|].
  assert (Hc : forall g j, length (tagged g j texts) = length (filter g texts)).
  { intros g. induction texts as [|t rest IH]; intros j; [reflexivity|].
    cbn [tagged filter]. destruct (g t); cbn [length]; now rewrite IH. }
  split; [apply Hc|]. split.
  - rewrite Hc. clear. induction texts as [|t rest IH]; [apply Nat.le_refl|].
    cbn [filter]. destruct (guard t); cbn [length]; lia.
  - rewrite Hc. clear. induction texts as [|t rest IH]; [reflexivity|].
    cbn [filter]. destruct (truthy t); cbn [negb length]; lia.
Qed.

(** ** More on the loop over the libraries *)

Lemma attempt_unknown (w : world) (lib : string) :
  known lib = false ->
  ExtractProfile.attempt w lib = ([], Returns ExtractProfile.Next).
Proof.
  unfold known. cbn [existsb ExtractProfile.libraries_to_try]. intros H.
  apply orb_false_elim in H. destruct H as [H1 H].
  apply orb_false_elim in H. destruct H as [H2 H].
  apply orb_false_elim in H. destruct H as [H3 _].
  unfold ExtractProfile.attempt, ExtractProfile.try_body.
  now rewrite H1, H2, H3.
Qed.

(** X11.  The if/elif chain of extract_profile.py has no [else]: an entry of
    the list that is none of the three names is passed over without an
    import and without a line, so that the loop over a list is the loop
    over its known names. *)
Theorem unknown_names_are_skipped (w : world) (libs : list string) :
  ExtractProfile.for_libs w libs = ExtractProfile.for_libs w (filter known libs).
Proof.
  induction libs as [|lib rest IH]; [reflexivity|].
  cbn [filter]. destruct (known lib) eqn:Hk.
  - cbn [ExtractProfile.for_libs]. now rewrite IH.
  - rewrite (for_libs_next w lib rest [] (attempt_unknown w lib Hk)).
    rewrite <- IH. now destruct (ExtractProfile.for_libs w rest).
Qed.

Lemma known_in (lib : string) :
  known lib = true -> In lib ExtractProfile.libraries_to_try.
Proof.
  unfold known. intros H. apply existsb_exists in H.
  destruct H as (x & Hx & Heq). apply String.eqb_eq in Heq. now subst x.
Qed.

Section SameHost.

Variables w w' : world.
Hypothesis same_lacks : forall c, stdout_lacks w c = stdout_lacks w' c.
Hypothesis same_message : forall s, codec_message w s = codec_message w' s.

Lemma unprintable_ext (s : string) : unprintable w s = unprintable w' s.
Proof.
  induction s as [|c s IH]; [reflexivity|].
  cbn [unprintable]. now rewrite same_lacks, IH.
Qed.

Lemma reads_ext (guard : option string -> bool) (lib : string) :
  site w lib = site w' lib -> reads guard w lib = reads guard w' lib.
Proof.
  intros H. unfold reads, import_module, open_pdf. now rewrite H.
Qed.

Lemma attempt_ext (lib : string) :
  site w lib = site w' lib ->
  ExtractProfile.attempt w lib = ExtractProfile.attempt w' lib.
Proof.
  intros H. destruct (known lib) eqn:Hk.
  2:{ now rewrite !attempt_unknown. }
  pose proof (known_in lib Hk) as Hin.
  destruct (import_result (site w lib)) as [u|e] eqn:Hi;
    pose proof Hi as Hi'; rewrite H in Hi'.
  2:{ now rewrite (attempt_raises w lib _ _ (body_import_raises w lib e Hin Hi)),
        (attempt_raises w' lib _ _ (body_import_raises w' lib e Hin Hi')). }
  destruct (open_result (site w lib)) as [pages|e] eqn:Ho;
    pose proof Ho as Ho'; rewrite H in Ho'.
  2:{ now rewrite (attempt_raises w lib _ _ (body_open_raises w lib u e Hin Hi Ho)),
        (attempt_raises w' lib _ _ (body_open_raises w' lib u e Hin Hi' Ho')). }
  destruct (pages_split pages) as [[texts ->] | (texts & e & later & ->)].
  - destruct (unprintable w (render (tagged (ExtractProfile.lib_guard lib) 0 texts)))
      eqn:Hp; pose proof Hp as Hp'; rewrite unprintable_ext in Hp'.
    + rewrite (attempt_print_raises w lib u texts Hin Hi Ho Hp),
        (attempt_print_raises w' lib u texts Hin Hi' Ho' Hp').
      now rewrite same_message.
    + now rewrite (attempt_succeeds w lib u texts Hin Hi Ho Hp),
        (attempt_succeeds w' lib u texts Hin Hi' Ho' Hp').
  - now rewrite (attempt_raises w lib _ _
                   (body_page_raises w lib u texts e later Hin Hi Ho)),
      (attempt_raises w' lib _ _
         (body_page_raises w' lib u texts e later Hin Hi' Ho')).
Qed.

Lemma for_libs_ext (libs : list string) :
  incl libs ExtractProfile.libraries_to_try ->
  (forall lib, In lib (tried w libs) -> site w lib = site w' lib) ->
  ExtractProfile.for_libs w libs = ExtractProfile.for_libs w' libs.
Proof.
  induction libs as [|lib rest IH]; intros Hincl Hsame; [reflexivity|].
  assert (Hlib : site w lib = site w' lib) by (apply Hsame; now left).
  destruct (attempt_by_reads w lib) as (tr & Ha & _); [apply Hincl; now left|].
  pose proof Ha as Ha'. rewrite (attempt_ext lib Hlib) in Ha'.
  cbn [tried] in Hsame.
  assert (Hnext : (forall x, In x (lib :: tried w rest) -> site w x = site w' x) ->
                  ExtractProfile.attempt w lib = (tr, Returns ExtractProfile.Next) ->
                  ExtractProfile.attempt w' lib = (tr, Returns ExtractProfile.Next) ->
                  ExtractProfile.for_libs w (lib :: rest)
                  = ExtractProfile.for_libs w' (lib :: rest)).
  { intros Hs Hn Hn'.
    rewrite (for_libs_next w lib rest tr Hn), (for_libs_next w' lib rest tr Hn').
    rewrite IH; [reflexivity | |].
    - intros x Hx. apply Hincl. now right.
    - intros x Hx. apply Hs. now right. }
  destruct (reads (ExtractProfile.lib_guard lib) w lib) as [t|e].
  - destruct (unprintable w t).
    + now apply Hnext.
    + now rewrite (for_libs_break w lib rest tr Ha), (for_libs_break w' lib rest tr Ha').
  - now apply Hnext.
Qed.

End SameHost.

(** X12.  extract_profile.py depends on the host only through the file's
    existence and size, the encoding of [sys.stdout] and the libraries it
    tried: two hosts that agree on these give the same run, whatever they
    hold for the libraries after the one whose text is printed. *)
Theorem later_libraries_do_not_matter (w w' : world) :
  file_exists w = file_exists w' ->
  file_size w = file_size w' ->
  (forall c, stdout_lacks w c = stdout_lacks w' c) ->
  (forall s, codec_message w s = codec_message w' s) ->
  (forall lib, In lib (tried w ExtractProfile.libraries_to_try) ->
     site w lib = site w' lib) ->
  ExtractProfile.main w = ExtractProfile.main w'.
Proof.
  intros He Hs Hl Hc Hsame.
  rewrite (main_unfold w), (main_unfold w'). unfold ExtractProfile.header.
  rewrite He, Hs.
  now rewrite (for_libs_ext w w' Hl Hc _ (incl_refl _) Hsame).
Qed.

Lemma later_libraries_do_not_matter_witness :
  ExtractProfile.main Hosts.plumber_rejects
  = ExtractProfile.main
      (Hosts.host true 1024 (Hosts.missing "pypdf")
         (Hosts.installed [Hosts.text_page "hello"])
         (Hosts.installed [Hosts.blank_page])).
Proof.
  apply later_libraries_do_not_matter.
  - reflexivity.
  - reflexivity.
  - reflexivity.
  - reflexivity.
  - intros lib H. vm_compute in H.
    destruct H as [<- | [<- | []]]; reflexivity.
Defined.

(** X13.  A page loop asks the pages for their text in document order, each
    page at most once, and stops at the first page that raises: its events
    are the extractions of the pages 0 to k-1 for some k; when it returns,
    k is the number of pages, and when it raises, page k-1 is the first
    page that raises and the exception is that page's. *)
Theorem page_loop_extracts_in_order (guard : option string -> bool) (m : string)
    (pages : list page) (i : nat) (text : string) :
  exists k,
    k <= length pages
    /\ trace (page_loop guard m i pages text) = extract_events m i k
    /\ match result (page_loop guard m i pages text) with
       | Returns _ => k = length pages
       | Raises e =>
           1 <= k
           /\ nth_error pages (k - 1) = Some (Raises e)
           /\ forall j, j < k - 1 -> exists t, nth_error pages j = Some (Returns t)
       end.
Proof.
  destruct (pages_split pages) as [[texts ->] | (texts & e & later & ->)].
  - exists (length texts). rewrite page_loop_returns, length_map.
    unfold trace, result. cbn [fst snd]. repeat split. apply Nat.le_refl.
  - exists (S (length texts)). rewrite page_loop_raises.
    unfold trace, result. cbn [fst snd].
    rewrite length_app, length_map. cbn [length].
    replace (S (length texts) - 1) with (length texts) by lia.
    repeat split; try lia.
    + rewrite nth_error_app2 by (rewrite length_map; lia).
      rewrite length_map, Nat.sub_diag. reflexivity.
    + intros j Hj. rewrite nth_error_app1 by (rewrite length_map; lia).
      rewrite nth_error_map.
      destruct (nth_error texts j) as [t|] eqn:Hn.
      * now exists t.
      * apply nth_error_None in Hn. lia.
Qed.




(** ** An unavailable first library *)





(** ** A text that stdout cannot encode *)

(** On a host with an ASCII [sys.stdout] and a page with an accented letter,
    extract_profile.py prints the SUCCESS line of PyPDF2, then the error of
    [print], and goes on to pdfplumber, where the same happens. *)
Lemma profile_on_unprintable_text :
  stdout_of (trace (ExtractProfile.for_libs Hosts.accented
                      ExtractProfile.libraries_to_try))
  = ["pypdf not available";
     "SUCCESS with PyPDF2:";
     "Error with PyPDF2: 'ascii' codec can't encode character";
     "SUCCESS with pdfplumber:";
     "Error with pdfplumber: 'ascii' codec can't encode character"]
  /\ result (ExtractProfile.main Hosts.accented) = Returns tt.
Proof. split; reflexivity. Qed.

(** On the same kind of host extract_pdf.py turns the error of [print] into
    an [Error reading PDF] line on the pdfplumber path, and ends on it,
    uncaught, in the PyPDF2 fallback. *)
Lemma pdf_on_unprintable_text :
  ExtractPdf.main Hosts.accented
  = ([EvImport "pdfplumber"; EvOpen "pdfplumber"; EvExtract "pdfplumber" 0;
      EvPrint "Error reading PDF: 'ascii' codec can't encode character"],
     Returns tt)
  /\ ExtractPdf.main Hosts.accented_fallback
     = ([EvImport "pdfplumber";
         EvPrint "Error importing pdfplumber: No module named 'pdfplumber'";
         EvImport "PyPDF2"; EvOpen "PyPDF2"; EvExtract "PyPDF2" 0],
        Raises (OtherException "'ascii' codec can't encode character")).
Proof. split; reflexivity. Qed.
